(** * Verification of the SAR call-out board: the in-memory store of the
    backend (apps/backend/src/index.ts, the version with assignments and
    resources) and the drag-and-drop board reducer of the frontend
    (apps/frontend/src/DragBoard.tsx). *)

From Stdlib Require Import String List Bool ZArith QArith Qminmax Permutation Lia.
Import ListNotations.
Open Scope string_scope.
Open Scope list_scope.
Close Scope Q_scope.

(** ** Generic helpers: the JavaScript array operations used by the code *)
Module JS.

(** [arr.find(p)]: the first element satisfying [p], or undefined. *)
Fixpoint find {A} (p : A -> bool) (l : list A) : option A :=
  match l with
  | [] => None
  | x :: l' => if p x then Some x else find p l'
  end.

(** [arr.findIndex(p)]: the index of the first match, or -1. *)
Fixpoint findIndex {A} (p : A -> bool) (l : list A) : Z :=
  match l with
  | [] => (-1)%Z
  | x :: l' => if p x then 0%Z else
      match findIndex p l' with
      | (-1)%Z => (-1)%Z
      | i => (i + 1)%Z
      end
  end.

(** Truthiness of a string-valued field: undefined and "" are falsy. *)
Definition truthy (s : option string) : bool :=
  match s with
  | None => false
  | Some v => negb (String.eqb v "")
  end.

(** Start index normalisation of [Array.prototype.splice]. *)
Definition splice_start (len : nat) (s : Z) : nat :=
  if (s <? 0)%Z then Z.to_nat (Z.max (Z.of_nat len + s) 0)
  else Z.to_nat (Z.min s (Z.of_nat len)).

(** [arr.splice(start, 1)]: the array afterwards and the removed element
    (the [0] of the returned array), if any. *)
Definition splice_remove1 {A} (l : list A) (start : Z) : list A * option A :=
  let st := splice_start (length l) start in
  match nth_error l st with
  | Some x => (firstn st l ++ skipn (S st) l, Some x)
  | None => (l, None)
  end.

(** [arr.splice(start, 0, x)]. *)
Definition splice_insert {A} (l : list A) (start : Z) (x : A) : list A :=
  let st := splice_start (length l) start in
  firstn st l ++ x :: skipn st l.

(** Assigning to the fields of the object returned by [arr.find(p)]: the
    array element it aliases, the first one satisfying [p], becomes [x']. *)
Fixpoint replace_first {A} (p : A -> bool) (x' : A) (l : list A) : list A :=
  match l with
  | [] => []
  | x :: l' => if p x then x' :: l' else x :: replace_first p x' l'
  end.

(** [arr.splice(idx, 1)] for a found index (as in the delete handlers). *)
Definition remove_at {A} (l : list A) (idx : Z) : list A :=
  fst (splice_remove1 l idx).

End JS.

(** ** The backend store *)
Module Backend.

Inductive status_t := pending | active | completed.

(** [type Callout] of the backend. Fields the request body leaves out are
    stored as [undefined]: [None] here. *)
Module Callout.
Record t := mk {
  id : string;
  name : option string;
  status : option status_t;
  osGrid : option string;
  latitude : option Q;
  longitude : option Q;
  createdAt : string;
  assignedResources : list string
}.
Definition with_assigned (c : t) (l : list string) : t :=
  mk (id c) (name c) (status c) (osGrid c) (latitude c) (longitude c)
     (createdAt c) l.
End Callout.

(** [type Resource] of the backend. *)
Module Resource.
Record t := mk { id : string; name : string; category : string }.
End Resource.

(** Payloads of [io.emit] and of JSON responses. *)
Inductive payload :=
| PCallout (c : Callout.t)
| PResource (r : Resource.t)
| PId (id : string).

Definition event : Type := string * payload.

(** What a handler sends back. *)
Inductive response :=
| Json (code : nat) (p : payload)        (** res.status(code).json(p) *)
| Text (code : nat) (msg : string)       (** res.status(code).send(msg) *)
| NoBody (code : nat).                   (** res.sendStatus(code) *)

(** The module-level mutable state: the two collections and the sequence of
    events published on the socket.io server. *)
Record store := mkStore {
  callouts : list Callout.t;
  resources : list Resource.t;
  emitted : list event
}.

Definition set_callouts (s : store) l := mkStore l (resources s) (emitted s).
Definition set_resources (s : store) l := mkStore (callouts s) l (emitted s).
Definition emit (s : store) (e : event) :=
  mkStore (callouts s) (resources s) (emitted s ++ [e]).

Definition callout_has_id (cid : string) (c : Callout.t) : bool :=
  String.eqb (Callout.id c) cid.
Definition resource_has_id (rid : string) (r : Resource.t) : bool :=
  String.eqb (Resource.id r) rid.

(** [callouts.find((c) => c.id === id)] *)
Definition find_callout (cid : string) (l : list Callout.t) :=
  JS.find (callout_has_id cid) l.

(** Body of POST /callouts. *)
Record callout_body := mkCalloutBody {
  b_name : option string;
  b_status : option status_t;
  b_osGrid : option string;
  b_latitude : option Q;
  b_longitude : option Q
}.

(** POST /callouts; [fresh] is [uuidv4()], [now] is
    [new Date().toISOString()]. *)
Definition create_callout (s : store) (fresh now : string) (b : callout_body)
  : store * response :=
  let c := Callout.mk fresh (b_name b) (b_status b) (b_osGrid b)
             (b_latitude b) (b_longitude b) now [] in
  let s1 := set_callouts s (callouts s ++ [c]) in
  (emit s1 ("callout:new", PCallout c), Json 201 (PCallout c)).

(** POST /callouts/:id/assign *)
Definition assign (s : store) (cid rid : string) : store * response :=
  match find_callout cid (callouts s) with
  | None => (s, Text 404 "Not found")
  | Some c =>
      if existsb (String.eqb rid) (Callout.assignedResources c) then
        (s, Json 200 (PCallout c))
      else
        let c' := Callout.with_assigned c (Callout.assignedResources c ++ [rid]) in
        let s1 := set_callouts s (JS.replace_first (callout_has_id cid) c' (callouts s)) in
        (emit s1 ("callout:update", PCallout c'), Json 200 (PCallout c'))
  end.

(** POST /callouts/:id/unassign *)
Definition unassign (s : store) (cid rid : string) : store * response :=
  match find_callout cid (callouts s) with
  | None => (s, Text 404 "Not found")
  | Some c =>
      let c' := Callout.with_assigned c
                  (filter (fun x => negb (String.eqb x rid))
                          (Callout.assignedResources c)) in
      let s1 := set_callouts s (JS.replace_first (callout_has_id cid) c' (callouts s)) in
      (emit s1 ("callout:update", PCallout c'), Json 200 (PCallout c'))
  end.

(** PATCH /resources/:id; [name] and [category] are the body's fields. *)
Definition update_resource (s : store) (rid : string)
  (name category : option string) : store * response :=
  match JS.find (resource_has_id rid) (resources s) with
  | None => (s, Text 404 "Not found")
  | Some r =>
      let r1 := match name with
                | Some n => if JS.truthy name then Resource.mk (Resource.id r) n (Resource.category r) else r
                | None => r
                end in
      let r2 := match category with
                | Some k => if JS.truthy category then Resource.mk (Resource.id r1) (Resource.name r1) k else r1
                | None => r1
                end in
      let s1 := set_resources s (JS.replace_first (resource_has_id rid) r2 (resources s)) in
      (emit s1 ("resource:update", PResource r2), Json 200 (PResource r2))
  end.

(** DELETE /resources/:id *)
Definition delete_resource (s : store) (rid : string) : store * response :=
  let idx := JS.findIndex (resource_has_id rid) (resources s) in
  if (idx =? -1)%Z then (s, Text 404 "Not found")
  else
    let s1 := set_resources s (JS.remove_at (resources s) idx) in
    (emit s1 ("resource:delete", PId rid), NoBody 204).

End Backend.

(** ** Start-up: loading the resource seed *)
Module Startup.
Import Backend.

(** Outcome of a JavaScript statement that may throw. *)
Inductive result (A : Type) :=
| Ok (a : A)
| Throw (err : string).
Arguments Ok {A} a.
Arguments Throw {A} err.

(** [let initialResources = []; try { json = fs.readFileSync(...);
    initialResources = JSON.parse(json); } catch (err) { console.error(...) }].
    [readFileSync] is the outcome of reading the file and [json_parse] the
    outcome of parsing a text; the result is [initialResources] and the lines
    written to the console. *)
Definition load_initial_resources (readFileSync : result string)
  (json_parse : string -> result (list Resource.t))
  : list Resource.t * list string :=
  let attempt := match readFileSync with
                 | Ok json => json_parse json
                 | Throw e => Throw e
                 end in
  match attempt with
  | Ok rs => (rs, [])
  | Throw err => ([], [("⚠️  Could not load resources.json: " ++ err)%string])
  end.

(** The process after its top-level statements have run. *)
Record booted := mkBooted {
  state : store;
  console : list string;
  listening : bool
}.

(** The module's top level: the seed load, [const callouts = []],
    [const resources = initialResources], then [server.listen]. A [Throw]
    escaping here would be an uncaught exception that ends the process. *)
Definition boot (readFileSync : result string)
  (json_parse : string -> result (list Resource.t)) : result booted :=
  let (initialResources, log) := load_initial_resources readFileSync json_parse in
  Ok (mkBooted (mkStore [] initialResources []) log true).

End Startup.

(** ** The drag-and-drop board of DragBoard.tsx *)
Module Board.

(** [interface Resource] of the board. *)
Record Res := mkRes { id : string; label : string; type : string }.

(** The [columns] state: a JS object from column id to its ordered items,
    as its keys are enumerated (insertion order; the column ids used are not
    array-index strings). *)
Definition columns_t : Type := list (string * list Res).

(** [columns[k]] *)
Fixpoint get (o : columns_t) (k : string) : option (list Res) :=
  match o with
  | [] => None
  | (k', v) :: o' => if String.eqb k' k then Some v else get o' k
  end.

(** [{...o, [k]: v}]: an existing key keeps its place, a new one goes last. *)
Fixpoint set (o : columns_t) (k : string) (v : list Res) : columns_t :=
  match o with
  | [] => [(k, v)]
  | (k', v') :: o' => if String.eqb k' k then (k, v) :: o' else (k', v') :: set o' k v
  end.

Definition has_id (x : string) (r : Res) : bool := String.eqb (id r) x.

(** [arrayMove] of @dnd-kit/sortable:
    [const newArray = array.slice();
     newArray.splice(to < 0 ? newArray.length + to : to, 0,
                     newArray.splice(from, 1)[0]);].
    The first argument of the outer splice is evaluated before the inner
    splice shortens the array. When [from] is out of range the inner splice
    removes nothing and dnd-kit inserts [undefined]; [handleDragEnd] only
    calls it with the index of an element it found ([oldIdx_in_range] below),
    so that case leaves the array as it is here. *)
Definition arrayMove {A} (array : list A) (from to : Z) : list A :=
  let pos := if (to <? 0)%Z then (Z.of_nat (length array) + to)%Z else to in
  let (rest, moved) := JS.splice_remove1 array from in
  match moved with
  | Some x => JS.splice_insert rest pos x
  | None => rest
  end.

(** The part of [DragEndEvent] the handler reads: [active.id], and [over]
    with its [id] and [data.current?.columnId] (set by a [DroppableColumn],
    absent for a [SortableStrip]). *)
Record over_t := mkOver { over_id : string; over_columnId : option string }.
Record drag_end := mkDragEnd { active_id : string; over : option over_t }.

(** [Object.keys(columns).find((col) => columns[col].some((res) => res.id === active.id))] *)
Definition find_from_column (columns : columns_t) (aid : string) : option string :=
  JS.find (fun col => match get columns col with
                      | Some items => existsb (has_id aid) items
                      | None => false
                      end) (map fst columns).

(** [handleDragEnd], returning the new [columns] state (the old one when it
    returns early or does not call [setColumns]). *)
Definition handleDragEnd (columns : columns_t) (event : drag_end) : columns_t :=
  match over event with
  | None => columns
  | Some ov =>
      let fromColumn := find_from_column columns (active_id event) in
      let toColumn := over_columnId ov in
      if negb (JS.truthy fromColumn) || negb (JS.truthy toColumn) then columns
      else
        match fromColumn, toColumn with
        | Some fromC, Some toC =>
            let fromItems := match get columns fromC with Some v => v | None => [] end in
            if String.eqb fromC toC then
              let oldIdx := JS.findIndex (has_id (active_id event)) fromItems in
              let newIdx := JS.findIndex (has_id (over_id ov)) fromItems in
              set columns fromC (arrayMove fromItems oldIdx newIdx)
            else
              match JS.find (has_id (active_id event)) fromItems, get columns toC with
              | Some moving, Some toItems =>
                  set (set columns fromC
                         (filter (fun r => negb (has_id (active_id event) r)) fromItems))
                      toC (toItems ++ [moving])
              (* [[...columns[toColumn], moving]] with no such column throws a
                 TypeError before [setColumns] *)
              | _, None => columns
              (* unreachable: [fromColumn] holds [active.id] *)
              | None, Some _ => columns
              end
        | _, _ => columns
        end
  end.

(** A sequence of drags applied one after the other. *)
Definition run (columns : columns_t) (events : list drag_end) : columns_t :=
  fold_left handleDragEnd events columns.

(** All items of all columns, column by column. *)
Definition all_items (columns : columns_t) : list Res := concat (map snd columns).

Definition total_length (columns : columns_t) : nat :=
  fold_right (fun kv n => (length (snd kv) + n)%nat) 0%nat columns.

End Board.

(** ** Concrete states used by the examples below *)
Module Samples.
Import Backend.

Definition fell_rescue : Callout.t :=
  Callout.mk "c1" (Some "Fell rescue") (Some active) None
    (Some (545 # 10)%Q) (Some (-31 # 10)%Q) "2025-01-01T00:00:00.000Z" [].

Definition land_rover : Resource.t := Resource.mk "r1" "Land Rover" "vehicles".

Definition store0 : store := mkStore [fell_rescue] [land_rover] [].

(** A store in which call-outs hold resources: [c1] holds [r1], and [c2]
    holds [r1] twice and [r2] once. *)
Definition fell_rescue_held : Callout.t :=
  Callout.with_assigned fell_rescue ["r1"].

Definition missing_walker : Callout.t :=
  Callout.mk "c2" (Some "Missing walker") (Some active) (Some "NY 215 085")
    None None "2025-01-02T00:00:00.000Z" ["r1"; "r2"; "r1"].

Definition first_aid_kit : Resource.t := Resource.mk "r2" "First-aid kit" "medical".

Definition store1 : store :=
  mkStore [fell_rescue_held; missing_walker] [land_rover; first_aid_kit] [].

(** The body of the spec's first end-to-end scenario: no [status]. *)
Definition fell_body : callout_body :=
  mkCalloutBody (Some "Fell rescue") None None
    (Some (545 # 10)%Q) (Some (-31 # 10)%Q).

(** A body with neither a name nor any location. *)
Definition empty_body : callout_body := mkCalloutBody None None None None None.

Definition br1 := Board.mkRes "r1" "Team Leader" "PERSONNEL".
Definition br2 := Board.mkRes "r2" "4x4 Vehicle" "VEHICLE".
Definition br3 := Board.mkRes "r3" "Medical Pack" "MEDICAL_PACK".

(** The spec's board example: [{available:["r1","r2"], teamA:[]}]. *)
Definition pools_spec : Board.columns_t := [("available", [br1; br2]); ("teamA", [])].

(** The same with [teamA] already holding [r3]. *)
Definition pools_busy : Board.columns_t := [("available", [br1; br2]); ("teamA", [br3])].

(** Dropping [r1] on the [teamA] column. *)
Definition drop_r1_teamA : Board.drag_end :=
  Board.mkDragEnd "r1" (Some (Board.mkOver "teamA" (Some "teamA"))).

End Samples.

(** ** The board reducer as the specification words it *)
Module SpecBoard.
Import Board.

(** Modelled from the spec's words (section 4.3), to be compared with
    [Board.handleDragEnd]: [move(pools, resourceId, fromPool, toPool,
    targetIndex)] for [fromPool != toPool] removes the resource from
    [fromPool] and inserts it into [toPool] at [targetIndex] clamped to
    [[0, len(toPool)]]; a resource not in [fromPool] leaves the pools as they
    are. Only the case [fromPool != toPool] is compared below, so the
    same-pool reposition is left as the identity here. *)
Definition move (pools : columns_t) (resourceId fromPool toPool : string)
  (targetIndex : Z) : columns_t :=
  match get pools fromPool, get pools toPool with
  | Some fromItems, Some toItems =>
      match JS.find (has_id resourceId) fromItems with
      | Some r =>
          if String.eqb fromPool toPool then pools
          else
            let i := Z.to_nat (Z.max 0 (Z.min targetIndex (Z.of_nat (length toItems)))) in
            set (set pools fromPool (filter (fun x => negb (has_id resourceId x)) fromItems))
                toPool (firstn i toItems ++ r :: skipn i toItems)
      | None => pools
      end
  | _, _ => pools
  end.

End SpecBoard.

(** ** The remaining mutating routes of the backend and their dispatch *)
Module Server.
Import Backend.

(** DELETE /callouts/:id *)
Definition delete_callout (s : store) (cid : string) : store * response :=
  let idx := JS.findIndex (callout_has_id cid) (callouts s) in
  if (idx =? -1)%Z then (s, Text 404 "Not found")
  else
    let s1 := set_callouts s (JS.remove_at (callouts s) idx) in
    (emit s1 ("callout:delete", PId cid), NoBody 204).

(** POST /resources; [fresh] is [uuidv4()], [name] and [category] the
    body's fields; [if (!name || !category) return res.status(400)...]. *)
Definition create_resource (s : store) (fresh : string)
  (name category : option string) : store * response :=
  if negb (JS.truthy name) || negb (JS.truthy category) then
    (s, Text 400 "Missing fields")
  else
    match name, category with
    | Some n, Some k =>
        let r := Resource.mk fresh n k in
        let s1 := set_resources s (resources s ++ [r]) in
        (emit s1 ("resource:new", PResource r), Json 201 (PResource r))
    | _, _ => (s, Text 400 "Missing fields")
    end.

(** The mutating requests the backend serves, with the values its handler
    draws from [uuidv4()] and the clock. *)
Inductive request :=
| ReqCreateCallout (fresh now : string) (b : callout_body)
| ReqDeleteCallout (cid : string)
| ReqAssign (cid rid : string)
| ReqUnassign (cid rid : string)
| ReqCreateResource (fresh : string) (name category : option string)
| ReqUpdateResource (rid : string) (name category : option string)
| ReqDeleteResource (rid : string).

Definition handle (s : store) (req : request) : store * response :=
  match req with
  | ReqCreateCallout fresh now b => create_callout s fresh now b
  | ReqDeleteCallout cid => delete_callout s cid
  | ReqAssign cid rid => assign s cid rid
  | ReqUnassign cid rid => unassign s cid rid
  | ReqCreateResource fresh name category => create_resource s fresh name category
  | ReqUpdateResource rid name category => update_resource s rid name category
  | ReqDeleteResource rid => delete_resource s rid
  end.

(** A 4xx answer. *)
Definition is_client_error (r : response) : bool :=
  match r with
  | Json code _ | Text code _ | NoBody code => (400 <=? code) && (code <? 500)
  end%nat.

(** The events a request published: those appended to the log. *)
Definition new_events (s s' : store) : list event :=
  skipn (length (emitted s)) (emitted s').

(** The [uuidv4()] value a request uses is not an id already in use. *)
Definition fresh_ok (s : store) (req : request) : Prop :=
  match req with
  | ReqCreateCallout fresh _ _ => ~ In fresh (map Callout.id (callouts s))
  | ReqCreateResource fresh _ _ => ~ In fresh (map Resource.id (resources s))
  | _ => True
  end.

End Server.

(** ** The client of the broadcast channel (the call-out board page) *)
Module Client.
Import Backend.

(** The page's [callOuts] and [resources] state. *)
Record client := mkClient {
  c_callouts : list Callout.t;
  c_resources : list Resource.t
}.

(** The [socket.on] listeners of the page, applied to one event:
    [callout:new] appends, [callout:update] replaces by id with
    [curr.map((x) => (x.id === c.id ? c : x))], [callout:delete] keeps
    [curr.filter((x) => x.id !== id)], and the same for resources. Other
    events have no listener. The backend publishes each of these names with
    one payload shape only (an entity, or [{ id }] for the deletes); the other
    combinations never arrive and are left without effect here. *)
Definition apply_event (cl : client) (e : event) : client :=
  let (ename, p) := e in
  match p with
  | PCallout c =>
      if String.eqb ename "callout:new" then
        mkClient (c_callouts cl ++ [c]) (c_resources cl)
      else if String.eqb ename "callout:update" then
        mkClient (map (fun x => if String.eqb (Callout.id x) (Callout.id c) then c else x)
                      (c_callouts cl)) (c_resources cl)
      else cl
  | PResource r =>
      if String.eqb ename "resource:new" then
        mkClient (c_callouts cl) (c_resources cl ++ [r])
      else if String.eqb ename "resource:update" then
        mkClient (c_callouts cl)
                 (map (fun x => if String.eqb (Resource.id x) (Resource.id r) then r else x)
                      (c_resources cl))
      else cl
  | PId id =>
      if String.eqb ename "callout:delete" then
        mkClient (filter (fun x => negb (String.eqb (Callout.id x) id)) (c_callouts cl))
                 (c_resources cl)
      else if String.eqb ename "resource:delete" then
        mkClient (c_callouts cl)
                 (filter (fun x => negb (String.eqb (Resource.id x) id)) (c_resources cl))
      else cl
  end.

Definition apply_events (cl : client) (es : list event) : client :=
  fold_left apply_event es cl.

End Client.

(** ** The splitter of the page layout (the [App] component of the
    frontend): [sidebarWidth], [dragging] and [onMouseMove] *)
Module Splitter.

(** [containerRef.current.getBoundingClientRect()]: its [left] and [width],
    when the container is mounted. *)
Record rect := mkRect { left : Q; width : Q }.

Record state := mkState { sidebarWidth : Q; dragging : bool }.

(** [useState(300)], [useState(false)] *)
Definition init : state := mkState (300 # 1) false.

(** The mouse events the page listens to; a move carries [e.clientX] and
    the container's rectangle at that moment ([None]: not mounted). *)
Inductive mouse_event :=
| MouseDown
| MouseUp
| MouseMove (clientX : Q) (container : option rect).

(** [let newWidth = e.clientX - left;
     newWidth = Math.max(200, Math.min(newWidth, width - 200));] *)
Definition new_width (clientX : Q) (r : rect) : Q :=
  Qmax (200 # 1) (Qmin (clientX - left r) (width r - (200 # 1))).

(** [onMouseDown] (on the divider), [onMouseUp] and [onMouseMove]. *)
Definition step (st : state) (e : mouse_event) : state :=
  match e with
  | MouseDown => mkState (sidebarWidth st) true
  | MouseUp => mkState (sidebarWidth st) false
  | MouseMove x c =>
      if negb (dragging st) then st
      else match c with
           | None => st
           | Some r => mkState (new_width x r) (dragging st)
           end
  end.

Definition run (st : state) (es : list mouse_event) : state := fold_left step es st.

End Splitter.

(** * Properties *)

(** ** Lemmas on the JavaScript helpers *)
Module JSFacts.

Lemma find_replace_first {A} (p : A -> bool) (x x' : A) (l : list A) :
  JS.find p l = Some x -> p x' = true ->
  JS.find p (JS.replace_first p x' l) = Some x'.
Proof.
  induction l as [|y l IH]; simpl; [discriminate|].
  destruct (p y) eqn:Hy; intros H Hx'.
  - simpl. now rewrite Hx'.
  - simpl. rewrite Hy. now apply IH.
Qed.

Lemma find_none_iff {A} (p : A -> bool) (l : list A) :
  JS.find p l = None <-> forall x, In x l -> p x = false.
Proof.
  induction l as [|y l IH]; simpl; [tauto|].
  destruct (p y) eqn:Hy; split.
  - discriminate.
  - intros H. now rewrite (H y (or_introl eq_refl)) in Hy.
  - intros H x [<-|Hx]; [assumption|]. now apply IH.
  - intros H. apply IH. intros x Hx. apply H. now right.
Qed.

Lemma find_some {A} (p : A -> bool) (l : list A) (x : A) :
  JS.find p l = Some x -> In x l /\ p x = true.
Proof.
  induction l as [|y l IH]; simpl; [discriminate|].
  destruct (p y) eqn:Hy.
  - intros [= <-]. auto.
  - intros H. destruct (IH H). auto.
Qed.

(** The index [findIndex] reports for a list with a match, and the split of
    the list at that index. *)
Lemma findIndex_split {A} (p : A -> bool) (l : list A) :
  (exists x, In x l /\ p x = true) ->
  exists pre x post, l = pre ++ x :: post /\ p x = true /\
    JS.findIndex p l = Z.of_nat (length pre).
Proof.
  induction l as [|y l IH]; simpl; intros [x [Hin Hx]]; [contradiction|].
  destruct (p y) eqn:Hy.
  - exists [], y, l. auto.
  - destruct Hin as [<-|Hin]; [congruence|].
    destruct (IH (ex_intro _ x (conj Hin Hx))) as (pre & z & post & -> & Hz & Hi).
    exists (y :: pre), z, post. repeat split; auto.
    rewrite Hi. simpl length.
    destruct (Z.of_nat (length pre)) eqn:E; try lia.
Qed.

Lemma findIndex_none {A} (p : A -> bool) (l : list A) :
  (forall x, In x l -> p x = false) -> JS.findIndex p l = (-1)%Z.
Proof.
  induction l as [|y l IH]; simpl; intros H; [reflexivity|].
  rewrite (H y (or_introl eq_refl)), IH; auto.
Qed.

Lemma splice_start_in_range (len n : nat) :
  (n <= len)%nat -> JS.splice_start len (Z.of_nat n) = n.
Proof.
  intros H. unfold JS.splice_start.
  destruct (Z.ltb_spec (Z.of_nat n) 0); [lia|]. lia.
Qed.

Lemma remove_at_split {A} (pre post : list A) (x : A) :
  JS.remove_at (pre ++ x :: post) (Z.of_nat (length pre)) = pre ++ post.
Proof.
  unfold JS.remove_at, JS.splice_remove1.
  rewrite splice_start_in_range by (rewrite length_app; simpl; lia).
  rewrite nth_error_app2, Nat.sub_diag by lia. cbn [nth_error].
  assert (Hf : firstn (length pre) (pre ++ x :: post) = pre)
    by (induction pre; simpl; congruence).
  assert (Hs : skipn (S (length pre)) (pre ++ x :: post) = post)
    by (clear Hf; induction pre as [|a pre IH]; [reflexivity | exact IH]).
  now rewrite Hf, Hs.
Qed.

End JSFacts.

(** ** The backend store *)
Module BackendFacts.
Import Backend Samples.

Lemma callout_has_id_with_assigned cid c l :
  callout_has_id cid c = true ->
  callout_has_id cid (Callout.with_assigned c l) = true.
Proof. now destruct c. Qed.

Lemma existsb_eqb_in (rid : string) (l : list string) :
  existsb (String.eqb rid) l = true <-> In rid l.
Proof.
  rewrite existsb_exists. split.
  - intros [x [Hx Heq]]. apply String.eqb_eq in Heq. now subst.
  - intros H. exists rid. split; [assumption | apply String.eqb_refl].
Qed.

Lemma count_occ_app_one (rid : string) (l : list string) :
  count_occ string_dec (l ++ [rid]) rid = S (count_occ string_dec l rid).
Proof.
  rewrite count_occ_app. simpl. destruct (string_dec rid rid); [lia | congruence].
Qed.

(** C1: [assign(c, r); assign(c, r)] leaves the call-outs and the event log
    as a single [assign(c, r)] left them; the second call answers with the
    stored call-out, in which [r] occurs once if it did not occur before. *)
Theorem assign_idempotent (s : store) (cid rid : string) (c : Callout.t)
  (Hc : find_callout cid (callouts s) = Some c) :
  let s1 := fst (assign s cid rid) in
  let s2 := fst (assign s1 cid rid) in
  callouts s2 = callouts s1 /\ emitted s2 = emitted s1 /\
  exists c1, find_callout cid (callouts s1) = Some c1 /\
    snd (assign s1 cid rid) = Json 200 (PCallout c1) /\
    In rid (Callout.assignedResources c1) /\
    count_occ string_dec (Callout.assignedResources c1) rid =
      Nat.max 1 (count_occ string_dec (Callout.assignedResources c) rid).
Proof.
  cbv zeta.
  destruct (existsb (String.eqb rid) (Callout.assignedResources c)) eqn:Hin.
  - (* already assigned: the first call is a no-op already *)
    assert (E : assign s cid rid = (s, Json 200 (PCallout c)))
      by (unfold assign; now rewrite Hc, Hin).
    rewrite E. simpl. rewrite E. simpl.
    split; [reflexivity|]. split; [reflexivity|]. exists c. repeat split; auto.
    + now apply existsb_eqb_in.
    + apply existsb_eqb_in in Hin. rewrite (count_occ_In string_dec) in Hin. destruct (count_occ string_dec (Callout.assignedResources c) rid); [lia | reflexivity].
  - set (c' := Callout.with_assigned c (Callout.assignedResources c ++ [rid])).
    set (s1 := emit (set_callouts s (JS.replace_first (callout_has_id cid) c' (callouts s)))
                    ("callout:update", PCallout c')).
    assert (E : assign s cid rid = (s1, Json 200 (PCallout c')))
      by (unfold assign; now rewrite Hc, Hin).
    assert (Hc' : find_callout cid (callouts s1) = Some c').
    { apply (JSFacts.find_replace_first _ c); auto.
      apply callout_has_id_with_assigned.
      now destruct (JSFacts.find_some _ _ _ Hc). }
    assert (Hin' : existsb (String.eqb rid) (Callout.assignedResources c') = true).
    { apply existsb_eqb_in. unfold c'. destruct c; simpl.
      apply in_or_app. right. simpl. auto. }
    assert (E2 : assign s1 cid rid = (s1, Json 200 (PCallout c')))
      by (unfold assign; now rewrite Hc', Hin').
    rewrite E. simpl. rewrite E2. simpl.
    split; [reflexivity|]. split; [reflexivity|]. exists c'. repeat split; auto.
    + now apply existsb_eqb_in.
    + unfold c'. destruct c; simpl in *. rewrite count_occ_app_one.
      assert (count_occ string_dec assignedResources rid = 0%nat).
      { apply count_occ_not_In. intros H. apply existsb_eqb_in in H. congruence. }
      rewrite H. reflexivity.
Qed.

Lemma assign_idempotent_witness :
  find_callout "c1" (callouts store0) = Some fell_rescue /\
  callouts (fst (assign (fst (assign store0 "c1" "r1")) "c1" "r1"))
  = callouts (fst (assign store0 "c1" "r1")).
Proof.
  split; [reflexivity|].
  exact (proj1 (assign_idempotent store0 "c1" "r1" fell_rescue eq_refl)).
Defined.

(** C5: [assign] answers 404 exactly when no call-out has the id; for an
    existing call-out it succeeds for any resource id, the id is then in the
    stored call-out's [assignedResources], and the answer does not depend on
    the resource collection at all. *)
Theorem assign_not_found_iff_missing (s : store) (cid rid : string) :
  (snd (assign s cid rid) = Text 404 "Not found" <->
   find_callout cid (callouts s) = None) /\
  (forall c, find_callout cid (callouts s) = Some c ->
   exists c', snd (assign s cid rid) = Json 200 (PCallout c') /\
     find_callout cid (callouts (fst (assign s cid rid))) = Some c' /\
     In rid (Callout.assignedResources c')) /\
  (forall rs, snd (assign (set_resources s rs) cid rid) = snd (assign s cid rid) /\
     callouts (fst (assign (set_resources s rs) cid rid))
     = callouts (fst (assign s cid rid))).
Proof.
  split; [|split].
  - unfold assign. destruct (find_callout cid (callouts s)).
    + destruct existsb; simpl; split; discriminate.
    + simpl. tauto.
  - intros c Hc. unfold assign. rewrite Hc.
    destruct (existsb (String.eqb rid) (Callout.assignedResources c)) eqn:Hin.
    + exists c. simpl. repeat split; auto. now apply existsb_eqb_in.
    + simpl. eexists. repeat split.
      apply (JSFacts.find_replace_first _ c); auto.
      apply callout_has_id_with_assigned.
      now destruct (JSFacts.find_some _ _ _ Hc).
      destruct c; simpl. apply in_or_app. right. simpl. auto.
  - intros rs. unfold assign. simpl.
    destruct (find_callout cid (callouts s)); [|auto].
    destruct existsb; auto.
Qed.

(** C6, at the failing input: the call-out [c1] has no assigned resource;
    [unassign(c1, r1)] changes nothing in it yet publishes a
    [callout:update], whereas the no-op [assign] repeat publishes nothing. *)
Theorem unassign_noop_still_emits :
  let s0 := store0 in
  let s1 := fst (unassign s0 "c1" "r1") in
  callouts s1 = callouts s0 /\
  emitted s1 = [("callout:update", PCallout fell_rescue)] /\
  (let s2 := fst (assign s0 "c1" "r1") in
   emitted (fst (assign s2 "c1" "r1")) = emitted s2).
Proof. vm_compute. repeat split; reflexivity. Qed.

(** Resource ids that occur once each in a list: those not removed by a
    [splice] of the first match are exactly the others. *)
Lemma remove_unique_id (l : list Resource.t) (rid : string) :
  NoDup (map Resource.id l) -> In rid (map Resource.id l) ->
  ~ In rid (map Resource.id
              (JS.remove_at l (JS.findIndex (resource_has_id rid) l))).
Proof.
  intros Hnd Hin.
  destruct (JSFacts.findIndex_split (resource_has_id rid) l) as (pre & x & post & -> & Hx & Hi).
  { apply in_map_iff in Hin as [x [Hx Hin]]. exists x. split; auto.
    unfold resource_has_id. now apply String.eqb_eq. }
  rewrite Hi, JSFacts.remove_at_split.
  unfold resource_has_id in Hx. apply String.eqb_eq in Hx. subst rid.
  rewrite map_app in *. simpl in Hnd.
  now apply NoDup_remove_2 in Hnd.
Qed.

(** C8: deleting an existing resource (ids unique) removes it from the
    resource collection and leaves every call-out, with its
    [assignedResources], exactly as it was. *)
Theorem delete_resource_no_cascade (s : store) (rid : string)
  (Hnd : NoDup (map Resource.id (resources s)))
  (Hin : In rid (map Resource.id (resources s))) :
  let s' := fst (delete_resource s rid) in
  callouts s' = callouts s /\
  ~ In rid (map Resource.id (resources s')) /\
  snd (delete_resource s rid) = NoBody 204.
Proof.
  cbv zeta. unfold delete_resource.
  destruct (JSFacts.findIndex_split (resource_has_id rid) (resources s)) as (pre & x & post & Hl & Hx & Hi).
  { apply in_map_iff in Hin as [x [Hx Hin]]. exists x. split; auto.
    unfold resource_has_id. now apply String.eqb_eq. }
  rewrite Hi. destruct (Z.eqb_spec (Z.of_nat (length pre)) (-1)); [lia|].
  simpl. repeat split; auto.
  rewrite <- Hi. now apply remove_unique_id.
Qed.

Lemma delete_resource_no_cascade_witness :
  NoDup (map Resource.id (resources store1)) /\
  In "r1" (map Resource.id (resources store1)) /\
  callouts (fst (delete_resource store1 "r1")) = callouts store1 /\
  In "r1" (Callout.assignedResources fell_rescue_held) /\
  In fell_rescue_held (callouts (fst (delete_resource store1 "r1"))) /\
  ~ In "r1" (map Resource.id (resources (fst (delete_resource store1 "r1")))).
Proof.
  assert (Hnd : NoDup (map Resource.id (resources store1))).
  { simpl. constructor; [simpl; intros [H|[]]; discriminate|].
    constructor; [simpl; tauto | constructor]. }
  assert (Hin : In "r1" (map Resource.id (resources store1))) by (simpl; auto).
  destruct (delete_resource_no_cascade store1 "r1" Hnd Hin) as (Hc & Hgone & _).
  split; [exact Hnd|]. split; [exact Hin|]. split; [exact Hc|].
  split; [simpl; auto|]. split; [rewrite Hc; simpl; auto|].
  exact Hgone.
Defined.

(** C10: for an existing resource, PATCH always succeeds, keeps the id, and
    applies a field only when it is a non-empty string; an absent field or
    the empty string leaves the stored field as it was. *)
Theorem update_resource_truthy_fields (s : store) (rid : string)
  (name category : option string) (r : Resource.t)
  (Hr : JS.find (resource_has_id rid) (resources s) = Some r) :
  exists r',
    snd (update_resource s rid name category) = Json 200 (PResource r') /\
    JS.find (resource_has_id rid) (resources (fst (update_resource s rid name category)))
      = Some r' /\
    Resource.id r' = Resource.id r /\
    (JS.truthy name = false -> Resource.name r' = Resource.name r) /\
    (forall n, name = Some n -> n <> "" -> Resource.name r' = n) /\
    (JS.truthy category = false -> Resource.category r' = Resource.category r) /\
    (forall k, category = Some k -> k <> "" -> Resource.category r' = k).
Proof.
  destruct (JSFacts.find_some _ _ _ Hr) as [_ Hrid].
  unfold update_resource. rewrite Hr.
  destruct r as [rid0 rname rcat]. unfold resource_has_id in Hrid. simpl in Hrid.
  destruct name as [n|], category as [k|]; unfold JS.truthy;
    [destruct (String.eqb_spec n ""), (String.eqb_spec k "")
    | destruct (String.eqb_spec n "")
    | destruct (String.eqb_spec k "")
    | ]; simpl;
    (eexists; split; [reflexivity|]; split;
     [apply (JSFacts.find_replace_first _ (Resource.mk rid0 rname rcat));
      [exact Hr | unfold resource_has_id; exact Hrid] |]);
    simpl; repeat split; intros; subst; try congruence.
Qed.

Lemma update_resource_truthy_fields_witness :
  JS.find (resource_has_id "r1") (resources store0) = Some land_rover /\
  exists r', snd (update_resource store0 "r1" (Some "") (Some "")) = Json 200 (PResource r') /\
             Resource.id r' = "r1".
Proof.
  split; [reflexivity|].
  destruct (update_resource_truthy_fields store0 "r1" (Some "") (Some "") land_rover eq_refl)
    as (r' & H1 & _ & H3 & _).
  exists r'. split; [exact H1 | exact H3].
Defined.

End BackendFacts.

(** ** Creating call-outs *)
Module CreateFacts.
Import Backend Samples.

(** C3, refuted: a body with no name and no location is accepted; the
    call-out is stored and returned with 201, no validation error. *)
Lemma create_callout_accepts_invalid :
  let r := create_callout store0 "c2" "2025-01-01T00:00:01.000Z" empty_body in
  snd r = Json 201 (PCallout (Callout.mk "c2" None None None None None
                                "2025-01-01T00:00:01.000Z" [])) /\
  callouts (fst r) = callouts store0 ++
    [Callout.mk "c2" None None None None None "2025-01-01T00:00:01.000Z" []] /\
  callouts (fst r) <> callouts store0.
Proof.
  vm_compute. split; [reflexivity|]. split; [reflexivity|]. discriminate.
Qed.

(** C3, as the code does it: POST /callouts validates nothing; every body,
    whatever its name and location fields, yields one new call-out built
    from them, appended to the collection, published as [callout:new] and
    returned with 201. *)
Theorem create_callout_no_validation (s : store) (fresh now : string)
  (b : callout_body) :
  exists c,
    snd (create_callout s fresh now b) = Json 201 (PCallout c) /\
    callouts (fst (create_callout s fresh now b)) = callouts s ++ [c] /\
    emitted (fst (create_callout s fresh now b)) = emitted s ++ [("callout:new", PCallout c)] /\
    resources (fst (create_callout s fresh now b)) = resources s /\
    Callout.id c = fresh /\ Callout.createdAt c = now /\
    Callout.name c = b_name b /\ Callout.status c = b_status b /\
    Callout.osGrid c = b_osGrid b /\ Callout.latitude c = b_latitude b /\
    Callout.longitude c = b_longitude b /\ Callout.assignedResources c = [].
Proof.
  eexists. unfold create_callout. simpl. repeat split; reflexivity.
Qed.

(** C4, at the failing input: the spec's first scenario body has no
    [status]; the call-out returned, stored and broadcast has status
    [undefined], not "active" (its [assignedResources] is [[]]). *)
Theorem create_callout_status_left_undefined :
  let r := create_callout (mkStore [] [] []) "c1" "2025-01-01T00:00:00.000Z" fell_body in
  exists c,
    snd r = Json 201 (PCallout c) /\
    callouts (fst r) = [c] /\
    emitted (fst r) = [("callout:new", PCallout c)] /\
    Callout.status c = None /\ Callout.status c <> Some active /\
    Callout.assignedResources c = [].
Proof.
  eexists. vm_compute. repeat split; try reflexivity. discriminate.
Qed.

End CreateFacts.

(** ** Start-up *)
Module StartupFacts.
Import Backend Startup.

(** C9: when reading or parsing the seed throws, the exception is caught:
    start-up completes, the server listens, the resource collection starts
    empty and the failure is written to the console. *)
Theorem boot_seed_failure_nonfatal
  (readFileSync : result string) (json_parse : string -> result (list Resource.t))
  (err : string)
  (Hfail : readFileSync = Throw err \/
           exists json, readFileSync = Ok json /\ json_parse json = Throw err) :
  exists b, boot readFileSync json_parse = Ok b /\
    resources (state b) = [] /\ callouts (state b) = [] /\
    console b = [("⚠️  Could not load resources.json: " ++ err)%string] /\
    listening b = true.
Proof.
  unfold boot, load_initial_resources.
  destruct Hfail as [-> | (json & -> & Hp)]; [|rewrite Hp];
    eexists; repeat split; reflexivity.
Qed.

Lemma boot_seed_failure_nonfatal_witness :
  exists b, boot (Throw "ENOENT") (fun _ => Ok []) = Ok b /\
    resources (state b) = [] /\ callouts (state b) = [] /\
    console b = [("⚠️  Could not load resources.json: " ++ "ENOENT")%string] /\
    listening b = true.
Proof.
  exact (boot_seed_failure_nonfatal (Throw "ENOENT") (fun _ => Ok []) "ENOENT"
           (or_introl eq_refl)).
Defined.

End StartupFacts.

(** ** The board reducer *)
Module BoardFacts.
Import Board Samples.

Lemma get_set_same (o : columns_t) k v : get (set o k v) k = Some v.
Proof.
  induction o as [|[k' w] o IH]; simpl.
  - now rewrite String.eqb_refl.
  - destruct (String.eqb_spec k' k); simpl.
    + now rewrite String.eqb_refl.
    + destruct (String.eqb_spec k' k); [contradiction | exact IH].
Qed.

Lemma get_set_other (o : columns_t) k k' v :
  k <> k' -> get (set o k v) k' = get o k'.
Proof.
  intros Hne. induction o as [|[k0 w] o IH]; simpl.
  - destruct (String.eqb_spec k k'); [contradiction | reflexivity].
  - destruct (String.eqb_spec k0 k); simpl.
    + subst k0. destruct (String.eqb_spec k k'); [contradiction | reflexivity].
    + destruct (String.eqb k0 k'); [reflexivity | exact IH].
Qed.

Lemma keys_set (o : columns_t) k v :
  get o k <> None -> map fst (set o k v) = map fst o.
Proof.
  induction o as [|[k0 w] o IH]; simpl; [congruence|].
  destruct (String.eqb_spec k0 k); simpl.
  - now subst.
  - intros H. now rewrite IH.
Qed.

(** Replacing the items [v] of one column by [v']: the items of all columns
    change by exchanging [v] for [v']. *)
Lemma all_items_set (o : columns_t) k v v' :
  get o k = Some v ->
  Permutation (all_items (set o k v') ++ v) (all_items o ++ v').
Proof.
  unfold all_items.
  induction o as [|[k0 w] o IH]; simpl; [discriminate|].
  destruct (String.eqb_spec k0 k); simpl.
  - intros [= <-]. clear IH. rewrite <- !app_assoc.
    rewrite (Permutation_app_comm (concat (map snd o)) w).
    rewrite (Permutation_app_comm (concat (map snd o)) v').
    apply Permutation_app_swap_app.
  - intros H. rewrite <- !app_assoc. apply Permutation_app_head. now apply IH.
Qed.

Lemma get_incl (o : columns_t) k v x :
  get o k = Some v -> In x v -> In x (all_items o).
Proof.
  unfold all_items.
  induction o as [|[k0 w] o IH]; simpl; [discriminate|].
  destruct (String.eqb k0 k).
  - intros [= <-] H. apply in_or_app. now left.
  - intros H Hx. apply in_or_app. right. eauto.
Qed.

Lemma NoDup_ids_get (o : columns_t) k v :
  NoDup (map id (all_items o)) -> get o k = Some v -> NoDup (map id v).
Proof.
  unfold all_items.
  induction o as [|[k0 w] o IH]; simpl; [discriminate|].
  rewrite map_app. intros Hnd.
  destruct (String.eqb k0 k).
  - intros [= <-]. now apply NoDup_app_remove_r in Hnd.
  - apply IH. now apply NoDup_app_remove_l in Hnd.
Qed.

(** [arrayMove] only reorders. *)
Lemma arrayMove_perm {A} (l : list A) (from to : Z) :
  Permutation (arrayMove l from to) l.
Proof.
  unfold arrayMove, JS.splice_remove1, JS.splice_insert.
  set (st := JS.splice_start (length l) from).
  destruct (nth_error l st) as [x|] eqn:Hx; [|reflexivity].
  set (rest := firstn st l ++ skipn (S st) l).
  set (p := JS.splice_start (length rest) _).
  transitivity (x :: rest).
  - rewrite <- (firstn_skipn p rest) at 3.
    symmetry. apply Permutation_middle.
  - unfold rest. apply nth_error_split in Hx as (l1 & l2 & Hl & Hlen).
    rewrite Hl, <- Hlen.
    assert (Hf : firstn (length l1) (l1 ++ x :: l2) = l1)
      by (clear; induction l1; simpl; congruence).
    assert (Hs : skipn (S (length l1)) (l1 ++ x :: l2) = l2)
      by (clear; induction l1 as [|a l1 IH]; [reflexivity | exact IH]).
    rewrite Hf, Hs. apply Permutation_middle.
Qed.

(** Removing by [filter] the one item that has the moving id. *)
Lemma filter_moving (l : list Res) (aid : string) (m : Res) :
  NoDup (map id l) -> JS.find (has_id aid) l = Some m ->
  Permutation l (m :: filter (fun r => negb (has_id aid r)) l).
Proof.
  induction l as [|y l IH]; simpl; [discriminate|].
  intros Hnd. inversion Hnd as [|? ? Hy Hnd']; subst.
  destruct (has_id aid y) eqn:Hay; simpl.
  - intros [= <-]. constructor.
    enough (E : filter (fun r => negb (has_id aid r)) l = l) by (rewrite E; reflexivity).
    apply forallb_filter_id. apply forallb_forall.
    intros z Hz. unfold has_id in *. apply String.eqb_eq in Hay.
    destruct (String.eqb_spec (id z) aid); [|reflexivity].
    exfalso. apply Hy. rewrite Hay, <- e. now apply in_map.
  - intros Hm. rewrite (IH Hnd' Hm) at 1. apply perm_swap.
Qed.

Lemma find_from_column_some (cols : columns_t) aid c :
  find_from_column cols aid = Some c ->
  exists items, get cols c = Some items /\ existsb (has_id aid) items = true.
Proof.
  unfold find_from_column. intros H.
  destruct (JSFacts.find_some _ _ _ H) as [_ Hp].
  destruct (get cols c) as [items|]; [eauto | discriminate].
Qed.

(** The index [handleDragEnd] hands to [arrayMove] as [from] is in range. *)
Lemma oldIdx_in_range (cols : columns_t) aid c items :
  find_from_column cols aid = Some c -> get cols c = Some items ->
  (0 <= JS.findIndex (has_id aid) items < Z.of_nat (length items))%Z.
Proof.
  intros Hf Hg. destruct (find_from_column_some _ _ _ Hf) as (items' & Hg' & Hex).
  rewrite Hg in Hg'. injection Hg' as <-.
  apply existsb_exists in Hex.
  destruct (JSFacts.findIndex_split (has_id aid) items Hex) as (pre & x & post & -> & _ & ->).
  rewrite length_app. simpl. lia.
Qed.

(** One drag conserves the items: the board after is a reordering of the
    board before, as long as no id occurs twice on it. *)
Lemma handleDragEnd_perm (cols : columns_t) (ev : drag_end) :
  NoDup (map id (all_items cols)) ->
  Permutation (all_items (handleDragEnd cols ev)) (all_items cols).
Proof.
  intros Hnd. unfold handleDragEnd.
  destruct (over ev) as [ov|]; [|reflexivity]. cbv zeta.
  destruct (find_from_column cols (active_id ev)) as [fromC|] eqn:Hf;
    [|simpl; reflexivity].
  destruct (over_columnId ov) as [toC|]; [|simpl; destruct (_ || _); reflexivity].
  destruct (negb (JS.truthy (Some fromC)) || negb (JS.truthy (Some toC)));
    [reflexivity|].
  destruct (find_from_column_some _ _ _ Hf) as (items & Hg & _).
  rewrite Hg.
  destruct (String.eqb_spec fromC toC).
  - apply (Permutation_app_inv_r items).
    rewrite all_items_set by exact Hg.
    apply Permutation_app_head, arrayMove_perm.
  - destruct (JS.find (has_id (active_id ev)) items) as [m|] eqn:Hm; [|
      destruct (get cols toC); reflexivity].
    destruct (get cols toC) as [toItems|] eqn:Hto; [|reflexivity].
    set (rest := filter (fun r => negb (has_id (active_id ev) r)) items).
    set (o1 := set cols fromC rest).
    assert (Hto1 : get o1 toC = Some toItems)
      by (unfold o1; rewrite get_set_other; auto).
    assert (P1 := all_items_set cols fromC items rest Hg).
    assert (P2 := all_items_set o1 toC toItems (toItems ++ [m]) Hto1).
    assert (Pm : Permutation items (m :: rest))
      by (apply filter_moving; [exact (NoDup_ids_get _ _ _ Hnd Hg) | exact Hm]).
    fold o1.
    apply (Permutation_app_inv_r (toItems ++ items)).
    transitivity ((all_items (set o1 toC (toItems ++ [m])) ++ toItems) ++ items);
      [now rewrite app_assoc|].
    transitivity ((all_items o1 ++ (toItems ++ [m])) ++ items);
      [now apply Permutation_app_tail|].
    transitivity (all_items o1 ++ (items ++ (toItems ++ [m])));
      [rewrite <- app_assoc; apply Permutation_app_head, Permutation_app_comm|].
    transitivity ((all_items cols ++ rest) ++ (toItems ++ [m]));
      [rewrite app_assoc; now apply Permutation_app_tail|].
    rewrite <- app_assoc. apply Permutation_app_head.
    rewrite Pm.
    transitivity ((toItems ++ [m]) ++ rest); [apply Permutation_app_comm|].
    rewrite <- app_assoc. reflexivity.
Qed.

Lemma NoDup_app_disjoint {A} (l1 l2 : list A) x :
  NoDup (l1 ++ l2) -> In x l1 -> In x l2 -> False.
Proof.
  induction l1 as [|a l1 IH]; simpl; [tauto|].
  intros Hnd. inversion Hnd as [|? ? Ha Hnd']; subst.
  intros [<-|Hx] H2; [|exact (IH Hnd' Hx H2)].
  apply Ha, in_or_app. now right.
Qed.

(** On a board where no id occurs twice, one column at most holds a given id. *)
Lemma unique_holder (cols : columns_t) k1 k2 v1 v2 aid :
  NoDup (map id (all_items cols)) ->
  get cols k1 = Some v1 -> get cols k2 = Some v2 ->
  In aid (map id v1) -> In aid (map id v2) -> k1 = k2.
Proof.
  unfold all_items.
  induction cols as [|[k w] o IH]; simpl; [discriminate|].
  rewrite map_app. intros Hnd.
  destruct (String.eqb_spec k k1), (String.eqb_spec k k2); try congruence;
    intros H1 H2 I1 I2.
  - injection H1 as <-. exfalso. apply (NoDup_app_disjoint _ _ aid Hnd I1).
    apply in_map_iff in I2 as (x & Hx & Hin).
    apply in_map_iff. exists x. split; [exact Hx|]. exact (get_incl _ _ _ _ H2 Hin).
  - injection H2 as <-. exfalso. apply (NoDup_app_disjoint _ _ aid Hnd I2).
    apply in_map_iff in I1 as (x & Hx & Hin).
    apply in_map_iff. exists x. split; [exact Hx|]. exact (get_incl _ _ _ _ H1 Hin).
  - exact (IH (NoDup_app_remove_l _ _ Hnd) H1 H2 I1 I2).
Qed.

Lemma run_perm (cols : columns_t) (events : list drag_end) :
  NoDup (map id (all_items cols)) ->
  Permutation (all_items (run cols events)) (all_items cols).
Proof.
  unfold run. revert cols.
  induction events as [|ev events IH]; simpl; intros cols Hnd; [reflexivity|].
  assert (P := handleDragEnd_perm cols ev Hnd).
  rewrite IH; [exact P|].
  apply (Permutation_NoDup (Permutation_map id (Permutation_sym P)) Hnd).
Qed.

Lemma total_length_all_items (cols : columns_t) :
  total_length cols = length (all_items cols).
Proof.
  unfold all_items, total_length.
  induction cols as [|[k w] o IH]; simpl; [reflexivity|].
  rewrite length_app. simpl in IH. lia.
Qed.

(** C2: over any sequence of drags, on a board where every id occurs
    once, the items after are a reordering of the items before: the same
    ids, each still in exactly one place, and the same total number of
    items over all columns. *)
Theorem run_conserves (cols : columns_t) (events : list drag_end)
  (Hnd : NoDup (map id (all_items cols))) :
  let cols' := run cols events in
  Permutation (all_items cols') (all_items cols) /\
  (forall x, In x (map id (all_items cols')) <-> In x (map id (all_items cols))) /\
  NoDup (map id (all_items cols')) /\
  (forall x, In x (map id (all_items cols)) ->
     count_occ string_dec (map id (all_items cols')) x = 1%nat) /\
  total_length cols' = total_length cols.
Proof.
  cbv zeta. assert (P := run_perm cols events Hnd).
  assert (Pm := Permutation_map id P).
  assert (Hnd' := Permutation_NoDup (Permutation_sym Pm) Hnd).
  split; [exact P|]. split; [|split; [exact Hnd'|split]].
  - intros x. split; apply Permutation_in; [exact Pm | exact (Permutation_sym Pm)].
  - intros x Hx. apply (proj1 (NoDup_count_occ' string_dec _) Hnd').
    exact (Permutation_in _ (Permutation_sym Pm) Hx).
  - rewrite !total_length_all_items. exact (Permutation_length P).
Qed.

Lemma run_conserves_witness :
  NoDup (map id (all_items pools_spec)) /\
  total_length (run pools_spec [drop_r1_teamA]) = total_length pools_spec.
Proof.
  assert (Hnd : NoDup (map id (all_items pools_spec))).
  { vm_compute. repeat constructor; simpl; intuition discriminate. }
  split; [exact Hnd|].
  exact (proj2 (proj2 (proj2 (proj2 (run_conserves pools_spec [drop_r1_teamA] Hnd))))).
Defined.

(** C7, refuted: dropping [r1] on [teamA] when [teamA] already holds [r3]
    appends it ([teamA = [r3; r1]]), while inserting at target index 0 as
    the spec describes would give [teamA = [r1; r3]]. *)
Lemma handleDragEnd_ignores_target_index :
  handleDragEnd pools_busy drop_r1_teamA = [("available", [br2]); ("teamA", [br3; br1])] /\
  SpecBoard.move pools_busy "r1" "available" "teamA" 0 =
    [("available", [br2]); ("teamA", [br1; br3])] /\
  handleDragEnd pools_busy drop_r1_teamA <> SpecBoard.move pools_busy "r1" "available" "teamA" 0.
Proof.
  vm_compute. split; [reflexivity|]. split; [reflexivity|]. discriminate.
Qed.

(** C7, as the code does it: a resource held by column [fromC], dropped on
    a different existing column [toC] (both with non-empty ids), leaves
    [fromC] without it and is appended at the end of [toC]; every other
    column and the column order are unchanged. The spec's example
    [{available:["r1","r2"], teamA:[]}] gives [{available:["r2"], teamA:["r1"]}]. *)
Theorem handleDragEnd_cross_appends (cols : columns_t) (aid oid fromC toC : string)
  (fromItems toItems : list Res)
  (Hnd : NoDup (map id (all_items cols)))
  (Hfrom : get cols fromC = Some fromItems) (Hin : In aid (map id fromItems))
  (Hto : get cols toC = Some toItems)
  (Hne : fromC <> toC) (HfromC : fromC <> "") (HtoC : toC <> "") :
  let cols' := handleDragEnd cols (mkDragEnd aid (Some (mkOver oid (Some toC)))) in
  exists moving, In moving fromItems /\ id moving = aid /\
    get cols' fromC = Some (filter (fun r => negb (has_id aid r)) fromItems) /\
    ~ In aid (map id (filter (fun r => negb (has_id aid r)) fromItems)) /\
    get cols' toC = Some (toItems ++ [moving]) /\
    (forall k, k <> fromC -> k <> toC -> get cols' k = get cols k) /\
    map fst cols' = map fst cols /\
    handleDragEnd pools_spec drop_r1_teamA = [("available", [br2]); ("teamA", [br1])].
Proof.
  assert (Hf : find_from_column cols aid = Some fromC).
  { unfold find_from_column.
    assert (Hex : exists k, In k (map fst cols) /\
               (match get cols k with Some items => existsb (has_id aid) items
                                   | None => false end) = true).
    { exists fromC. split.
      - clear - Hfrom. induction cols as [|[k w] o IH]; simpl in *; [discriminate|].
        destruct (String.eqb_spec k fromC); [now left | right; auto].
      - rewrite Hfrom. apply existsb_exists.
        apply in_map_iff in Hin as (x & <- & Hx). exists x.
        split; [exact Hx | apply String.eqb_refl]. }
    destruct (JS.find _ (map fst cols)) as [k|] eqn:Hk.
    - destruct (JSFacts.find_some _ _ _ Hk) as [_ Hp].
      destruct (get cols k) as [items|] eqn:Hg; [|discriminate].
      f_equal. apply (unique_holder cols k fromC items fromItems aid Hnd Hg Hfrom); [|exact Hin].
      apply existsb_exists in Hp as (x & Hx & Hxa).
      apply in_map_iff. exists x. split; [|exact Hx].
      unfold has_id in Hxa. now apply String.eqb_eq.
    - destruct Hex as (k & Hk1 & Hk2).
      rewrite (proj1 (JSFacts.find_none_iff _ _) Hk k Hk1) in Hk2. discriminate. }
  assert (Hm : exists moving, JS.find (has_id aid) fromItems = Some moving).
  { destruct (JS.find (has_id aid) fromItems) as [m|] eqn:E; [eauto|].
    exfalso. apply in_map_iff in Hin as (x & Hx & Hxin).
    assert (H := proj1 (JSFacts.find_none_iff _ _) E x Hxin).
    unfold has_id in H. rewrite Hx, String.eqb_refl in H. discriminate. }
  destruct Hm as [moving Hm].
  destruct (JSFacts.find_some _ _ _ Hm) as [Hmin Hmid].
  cbv zeta. exists moving. split; [exact Hmin|]. split.
  { unfold has_id in Hmid. now apply String.eqb_eq. }
  unfold handleDragEnd. simpl. rewrite Hf. simpl.
  destruct (String.eqb_spec fromC "") as [|_]; [contradiction|].
  destruct (String.eqb_spec toC "") as [|_]; [contradiction|]. simpl.
  rewrite Hfrom. destruct (String.eqb_spec fromC toC) as [|_]; [contradiction|].
  rewrite Hm, Hto.
  split; [rewrite get_set_other, get_set_same; auto|].
  split.
  { intros H. apply in_map_iff in H as (x & Hx & Hxin).
    apply filter_In in Hxin as [_ Hneg]. unfold has_id in Hneg.
    rewrite Hx, String.eqb_refl in Hneg. discriminate. }
  split; [apply get_set_same|].
  split; [intros k Hk1 Hk2; rewrite !get_set_other; auto|].
  split; [|vm_compute; reflexivity].
  rewrite keys_set, keys_set; [reflexivity | congruence |].
  rewrite get_set_other; auto. congruence.
Qed.

Lemma handleDragEnd_cross_appends_witness :
  NoDup (map id (all_items pools_busy)) /\
  get (handleDragEnd pools_busy drop_r1_teamA) "teamA" = Some [br3; br1].
Proof.
  assert (Hnd : NoDup (map id (all_items pools_busy))).
  { vm_compute. repeat constructor; simpl; intuition discriminate. }
  split; [exact Hnd|].
  destruct (handleDragEnd_cross_appends pools_busy "r1" "teamA" "available" "teamA"
              [br1; br2] [br3] Hnd eq_refl (or_introl eq_refl) eq_refl
              ltac:(discriminate) ltac:(discriminate) ltac:(discriminate))
    as (moving & Hin & Hid & _ & _ & Hto & _).
  simpl in Hin. destruct Hin as [<-|[<-|[]]]; [exact Hto | discriminate Hid].
Defined.

End BoardFacts.

(** ** Lists keyed by a string id *)
Module KeyedFacts.

Section Keyed.
Context {A : Type} (key : A -> string).

Lemma map_keep_absent (x' : A) (l : list A) :
  ~ In (key x') (map key l) ->
  map (fun x => if String.eqb (key x) (key x') then x' else x) l = l.
Proof.
  induction l as [|y l IH]; simpl; intros H; [reflexivity|].
  destruct (String.eqb_spec (key y) (key x')); [exfalso; apply H; now left|].
  f_equal. apply IH. tauto.
Qed.

Lemma filter_keep_absent (k : string) (l : list A) :
  ~ In k (map key l) -> filter (fun x => negb (String.eqb (key x) k)) l = l.
Proof.
  induction l as [|y l IH]; simpl; intros H; [reflexivity|].
  destruct (String.eqb_spec (key y) k); [exfalso; apply H; now left|].
  simpl. f_equal. apply IH. tauto.
Qed.

(** With unique ids, replacing the first element with id [key x'] is the
    same as replacing every element with that id. *)
Lemma replace_first_map (x' : A) (l : list A) :
  NoDup (map key l) ->
  JS.replace_first (fun x => String.eqb (key x) (key x')) x' l =
  map (fun x => if String.eqb (key x) (key x') then x' else x) l.
Proof.
  induction l as [|y l IH]; simpl; intros Hnd; [reflexivity|].
  inversion Hnd as [|? ? Hy Hnd']; subst.
  destruct (String.eqb_spec (key y) (key x')).
  - f_equal. symmetry. apply map_keep_absent. congruence.
  - f_equal. now apply IH.
Qed.

Lemma keys_replace_first (k : string) (x' : A) (l : list A) :
  key x' = k ->
  map key (JS.replace_first (fun x => String.eqb (key x) k) x' l) = map key l.
Proof.
  intros Hk. induction l as [|y l IH]; simpl; [reflexivity|].
  destruct (String.eqb_spec (key y) k); simpl; congruence.
Qed.

Lemma NoDup_keys_filter (f : A -> bool) (l : list A) :
  NoDup (map key l) -> NoDup (map key (filter f l)).
Proof.
  induction l as [|y l IH]; simpl; intros Hnd; [constructor|].
  inversion Hnd as [|? ? Hy Hnd']; subst.
  destruct (f y); simpl; [|auto].
  constructor; [|auto].
  intros H. apply Hy. apply in_map_iff in H as (z & Hz & Hin).
  apply filter_In in Hin as [Hin _]. rewrite <- Hz. now apply in_map.
Qed.

(** With unique ids, [splice] at the found index is [filter] on the id. *)
Lemma remove_found_filter (k : string) (l : list A) :
  NoDup (map key l) -> In k (map key l) ->
  JS.remove_at l (JS.findIndex (fun x => String.eqb (key x) k) l) =
  filter (fun x => negb (String.eqb (key x) k)) l.
Proof.
  intros Hnd Hin.
  destruct (JSFacts.findIndex_split (fun x => String.eqb (key x) k) l)
    as (pre & x & post & -> & Hx & ->).
  { apply in_map_iff in Hin as (x & Hx & Hin). exists x.
    split; [exact Hin | now apply String.eqb_eq]. }
  rewrite JSFacts.remove_at_split.
  apply String.eqb_eq in Hx. rewrite map_app in Hnd. simpl in Hnd.
  assert (Hpre : ~ In k (map key pre)).
  { intros H. apply (BoardFacts.NoDup_app_disjoint _ _ k Hnd H). left. exact Hx. }
  assert (Hpost : ~ In k (map key post)).
  { apply NoDup_app_remove_l in Hnd. inversion Hnd. congruence. }
  rewrite filter_app. simpl. rewrite Hx, String.eqb_refl. simpl.
  now rewrite !filter_keep_absent.
Qed.

Lemma NoDup_keys_remove_found (k : string) (l : list A) :
  NoDup (map key l) -> In k (map key l) ->
  NoDup (map key (JS.remove_at l (JS.findIndex (fun x => String.eqb (key x) k) l))).
Proof.
  intros Hnd Hin. rewrite remove_found_filter by assumption.
  now apply NoDup_keys_filter.
Qed.

Lemma findIndex_found (k : string) (l : list A) :
  (JS.findIndex (fun x => String.eqb (key x) k) l =? -1)%Z = false <-> In k (map key l).
Proof.
  split.
  - intros H. destruct (in_dec string_dec k (map key l)) as [|Hn]; [assumption|].
    rewrite JSFacts.findIndex_none in H; [discriminate|].
    intros x Hx. destruct (String.eqb_spec (key x) k); [|reflexivity].
    exfalso. apply Hn. rewrite <- e. now apply in_map.
  - intros Hin.
    destruct (JSFacts.findIndex_split (fun x => String.eqb (key x) k) l)
      as (pre & x & post & _ & _ & ->).
    { apply in_map_iff in Hin as (x & Hx & Hin). exists x.
      split; [exact Hin | now apply String.eqb_eq]. }
    apply Z.eqb_neq. lia.
Qed.

End Keyed.

End KeyedFacts.

(** ** The remaining routes *)
Module ServerFacts.
Import Backend Server.

Lemma replace_first_twice {A} (p : A -> bool) (x x' : A) (l : list A) :
  JS.find p l = Some x -> p x' = true ->
  JS.replace_first p x (JS.replace_first p x' l) = l.
Proof.
  induction l as [|y l IH]; simpl; [discriminate|].
  destruct (p y) eqn:Hy; intros H Hx'.
  - injection H as ->. simpl. now rewrite Hx'.
  - simpl. rewrite Hy. f_equal. now apply IH.
Qed.

Lemma with_assigned_same (c : Callout.t) :
  Callout.with_assigned c (Callout.assignedResources c) = c.
Proof. now destruct c. Qed.

Lemma filter_neq_absent (rid : string) (l : list string) :
  ~ In rid l -> filter (fun x => negb (String.eqb x rid)) l = l.
Proof.
  intros H. apply (KeyedFacts.filter_keep_absent (fun x => x)). now rewrite map_id.
Qed.

(** DELETE /callouts/:id answers 404 and changes nothing for an unknown id;
    for a known one (call-out ids unique) it removes exactly that call-out,
    keeps the others in order, leaves the resources alone and publishes one
    [callout:delete] event with the id. *)
Theorem delete_callout_removes (s : store) (cid : string) :
  (~ In cid (map Callout.id (callouts s)) ->
     delete_callout s cid = (s, Text 404 "Not found")) /\
  (NoDup (map Callout.id (callouts s)) ->
   In cid (map Callout.id (callouts s)) ->
     let s' := fst (delete_callout s cid) in
     callouts s' = filter (fun c => negb (String.eqb (Callout.id c) cid)) (callouts s) /\
     ~ In cid (map Callout.id (callouts s')) /\
     resources s' = resources s /\
     emitted s' = emitted s ++ [("callout:delete", PId cid)] /\
     snd (delete_callout s cid) = NoBody 204).
Proof.
  unfold delete_callout, callout_has_id. split.
  - intros Hn. rewrite <- (KeyedFacts.findIndex_found Callout.id cid) in Hn.
    destruct (_ =? -1)%Z; [reflexivity | contradiction].
  - intros Hnd Hin. rewrite (proj2 (KeyedFacts.findIndex_found Callout.id cid _) Hin).
    simpl. rewrite (KeyedFacts.remove_found_filter Callout.id) by assumption.
    repeat split.
    intros H. apply in_map_iff in H as (x & Hx & H).
    apply filter_In in H as [_ H]. rewrite Hx, String.eqb_refl in H. discriminate.
Qed.

Lemma delete_callout_removes_witness :
  delete_callout Samples.store1 "c9" = (Samples.store1, Text 404 "Not found") /\
  NoDup (map Callout.id (callouts Samples.store1)) /\
  callouts (fst (delete_callout Samples.store1 "c1")) = [Samples.missing_walker] /\
  emitted (fst (delete_callout Samples.store1 "c1")) = [("callout:delete", PId "c1")].
Proof.
  assert (Hnd : NoDup (map Callout.id (callouts Samples.store1))).
  { simpl. constructor; [simpl; intros [H|[]]; discriminate|].
    constructor; [simpl; tauto | constructor]. }
  assert (Hin : In "c1" (map Callout.id (callouts Samples.store1))) by (simpl; auto).
  destruct (delete_callout_removes Samples.store1 "c9") as [H404 _].
  destruct (delete_callout_removes Samples.store1 "c1") as [_ Hdel].
  destruct (Hdel Hnd Hin) as (Hc & _ & _ & He & _).
  split; [apply H404; simpl; intros [H|[H|[]]]; discriminate|].
  split; [exact Hnd|]. split; [rewrite Hc; reflexivity|].
  rewrite He. reflexivity.
Defined.

(** POST /callouts/:id/unassign on an existing call-out removes every
    occurrence of the resource id, keeps every other id with its
    multiplicity, and touches no other field of the call-out. *)
Theorem unassign_removes_all (s : store) (cid rid : string) (c : Callout.t)
  (Hc : find_callout cid (callouts s) = Some c) :
  exists c',
    snd (unassign s cid rid) = Json 200 (PCallout c') /\
    find_callout cid (callouts (fst (unassign s cid rid))) = Some c' /\
    ~ In rid (Callout.assignedResources c') /\
    (forall x, x <> rid ->
       count_occ string_dec (Callout.assignedResources c') x =
       count_occ string_dec (Callout.assignedResources c) x) /\
    (exists l, c' = Callout.with_assigned c l).
Proof.
  unfold unassign. rewrite Hc.
  eexists. split; [reflexivity|]. split.
  { simpl. apply (JSFacts.find_replace_first _ c); [exact Hc|].
    apply BackendFacts.callout_has_id_with_assigned.
    now destruct (JSFacts.find_some _ _ _ Hc). }
  destruct c as [i nm st og la lo ca ar]. simpl.
  split; [|split; [|eauto]].
  - intros H. apply filter_In in H as [_ H].
    rewrite String.eqb_refl in H. discriminate.
  - intros x Hx. clear Hc. induction ar as [|y ar IH]; simpl; [reflexivity|].
    destruct (String.eqb_spec y rid); simpl.
    + subst y. destruct (string_dec rid x); [congruence | exact IH].
    + destruct (string_dec y x); rewrite IH; reflexivity.
Qed.

Lemma unassign_removes_all_witness :
  find_callout "c2" (callouts Samples.store1) = Some Samples.missing_walker /\
  exists c', snd (unassign Samples.store1 "c2" "r1") = Json 200 (PCallout c') /\
             ~ In "r1" (Callout.assignedResources c') /\
             count_occ string_dec (Callout.assignedResources c') "r2" = 1%nat /\
             Callout.name c' = Some "Missing walker".
Proof.
  assert (Hc : find_callout "c2" (callouts Samples.store1) = Some Samples.missing_walker)
    by reflexivity.
  split; [exact Hc|].
  destruct (unassign_removes_all Samples.store1 "c2" "r1" Samples.missing_walker Hc)
    as (c' & H1 & _ & H3 & H4 & [l ->]).
  exists (Callout.with_assigned Samples.missing_walker l).
  split; [exact H1|]. split; [exact H3|]. split; [|reflexivity].
  rewrite H4 by discriminate. reflexivity.
Defined.

(** Assigning a resource a call-out does not hold and then unassigning it
    gives back exactly the call-out collection (and resources) of before;
    two [callout:update] events are published on the way. *)
Theorem assign_then_unassign_restores (s : store) (cid rid : string) (c : Callout.t)
  (Hc : find_callout cid (callouts s) = Some c)
  (Hr : ~ In rid (Callout.assignedResources c)) :
  let s2 := fst (unassign (fst (assign s cid rid)) cid rid) in
  callouts s2 = callouts s /\ resources s2 = resources s /\
  emitted s2 = emitted s ++
    [("callout:update", PCallout (Callout.with_assigned c (Callout.assignedResources c ++ [rid])));
     ("callout:update", PCallout c)].
Proof.
  cbv zeta.
  assert (Hp : callout_has_id cid c = true) by now destruct (JSFacts.find_some _ _ _ Hc).
  assert (Hn : existsb (String.eqb rid) (Callout.assignedResources c) = false).
  { destruct existsb eqn:E; [|reflexivity].
    apply BackendFacts.existsb_eqb_in in E. contradiction. }
  set (c' := Callout.with_assigned c (Callout.assignedResources c ++ [rid])).
  assert (Hp' : callout_has_id cid c' = true)
    by (apply BackendFacts.callout_has_id_with_assigned; exact Hp).
  assert (Hc'' : Callout.with_assigned c'
                   (filter (fun x => negb (String.eqb x rid)) (Callout.assignedResources c')) = c).
  { unfold c'. destruct c as [i nm st og la lo ca ar]; simpl in *.
    rewrite filter_app, filter_neq_absent by exact Hr. simpl.
    rewrite String.eqb_refl. simpl. now rewrite app_nil_r. }
  unfold assign. rewrite Hc, Hn. fold c'. simpl.
  unfold unassign. simpl.
  unfold find_callout; rewrite (JSFacts.find_replace_first _ c c' _ Hc Hp').
  rewrite Hc''. rewrite (replace_first_twice _ c c' _ Hc Hp').
  split; [reflexivity|]. split; [reflexivity|].
  simpl. now rewrite <- app_assoc.
Qed.

Lemma assign_then_unassign_restores_witness :
  find_callout "c1" (callouts Samples.store0) = Some Samples.fell_rescue /\
  ~ In "r1" (Callout.assignedResources Samples.fell_rescue) /\
  callouts (fst (unassign (fst (assign Samples.store0 "c1" "r1")) "c1" "r1"))
  = callouts Samples.store0.
Proof.
  assert (Hr : ~ In "r1" (Callout.assignedResources Samples.fell_rescue)) by (simpl; tauto).
  split; [reflexivity|]. split; [exact Hr|].
  exact (proj1 (assign_then_unassign_restores Samples.store0 "c1" "r1"
                  Samples.fell_rescue eq_refl Hr)).
Defined.

(** Every request either leaves the store as it was, or publishes exactly
    one event and answers with a non-4xx code. *)
Lemma handle_shape (s : store) (req : request) :
  fst (handle s req) = s \/
  exists e, emitted (fst (handle s req)) = emitted s ++ [e] /\
            is_client_error (snd (handle s req)) = false.
Proof.
  destruct req as [fresh now b|cid|cid rid|cid rid|fresh name category|rid name category|rid];
    simpl.
  - right. eexists. split; reflexivity.
  - unfold delete_callout. destruct (_ =? -1)%Z; [now left|].
    right. eexists. split; reflexivity.
  - unfold assign. destruct (find_callout cid (callouts s)); [|now left].
    destruct existsb; [now left|]. right. eexists. split; reflexivity.
  - unfold unassign. destruct (find_callout cid (callouts s)); [|now left].
    right. eexists. split; reflexivity.
  - unfold create_resource. destruct (_ || _); [now left|].
    destruct name, category; try (now left). right. eexists. split; reflexivity.
  - unfold update_resource. destruct (JS.find _ _); [|now left].
    right. eexists. split; reflexivity.
  - unfold delete_resource. destruct (_ =? -1)%Z; [now left|].
    right. eexists. split; reflexivity.
Qed.

(** A request answered with a 4xx code changes nothing: neither collection
    nor the event log. *)
Theorem handle_error_no_change (s : store) (req : request) :
  is_client_error (snd (handle s req)) = true -> fst (handle s req) = s.
Proof.
  intros H. destruct (handle_shape s req) as [E | (e & _ & He)]; [exact E|].
  congruence.
Qed.

Lemma handle_error_no_change_witness :
  is_client_error (snd (handle Samples.store0 (ReqDeleteCallout "c9"))) = true /\
  fst (handle Samples.store0 (ReqDeleteCallout "c9")) = Samples.store0.
Proof.
  assert (H : is_client_error (snd (handle Samples.store0 (ReqDeleteCallout "c9"))) = true)
    by reflexivity.
  split; [exact H|]. exact (handle_error_no_change _ _ H).
Defined.

(** Each request publishes at most one event, and a request that publishes
    none leaves both collections as they were. *)
Theorem handle_at_most_one_event (s : store) (req : request) :
  let s' := fst (handle s req) in
  (emitted s' = emitted s \/ exists e, emitted s' = emitted s ++ [e]) /\
  (emitted s' = emitted s -> callouts s' = callouts s /\ resources s' = resources s).
Proof.
  cbv zeta. destruct (handle_shape s req) as [E | (e & He & _)].
  - rewrite E. auto.
  - split; [right; eauto|]. intros H. rewrite He in H.
    apply (f_equal (@length event)) in H. rewrite length_app in H. simpl in H. lia.
Qed.

(** Ids stay unique: a request whose fresh id is new keeps the call-out ids
    and the resource ids free of duplicates. *)
Theorem handle_keeps_ids_unique (s : store) (req : request)
  (Hc : NoDup (map Callout.id (callouts s)))
  (Hr : NoDup (map Resource.id (resources s)))
  (Hf : fresh_ok s req) :
  NoDup (map Callout.id (callouts (fst (handle s req)))) /\
  NoDup (map Resource.id (resources (fst (handle s req)))).
Proof.
  destruct req as [fresh now b|cid|cid rid|cid rid|fresh name category|rid name category|rid];
    simpl in *.
  - split; [|exact Hr]. rewrite map_app. simpl.
    apply NoDup_app; [exact Hc | repeat constructor; simpl; tauto |].
    intros a Ha [<-|[]]. contradiction.
  - unfold delete_callout. destruct (_ =? -1)%Z eqn:E; [auto|].
    split; [|exact Hr]. simpl.
    apply (KeyedFacts.NoDup_keys_remove_found Callout.id); [exact Hc|].
    exact (proj1 (KeyedFacts.findIndex_found Callout.id cid _) E).
  - unfold assign. destruct (find_callout cid (callouts s)) as [c|] eqn:Hfc; [|auto].
    destruct existsb; [auto|]. split; [|exact Hr]. simpl.
    rewrite (KeyedFacts.keys_replace_first Callout.id cid); [exact Hc|].
    destruct (JSFacts.find_some _ _ _ Hfc) as [_ H].
    apply String.eqb_eq in H. destruct c; exact H.
  - unfold unassign. destruct (find_callout cid (callouts s)) as [c|] eqn:Hfc; [|auto].
    split; [|exact Hr]. simpl.
    rewrite (KeyedFacts.keys_replace_first Callout.id cid); [exact Hc|].
    destruct (JSFacts.find_some _ _ _ Hfc) as [_ H].
    apply String.eqb_eq in H. destruct c; exact H.
  - unfold create_resource. destruct (_ || _); [auto|].
    destruct name, category; try (now split). split; [exact Hc|]. simpl.
    rewrite map_app. simpl.
    apply NoDup_app; [exact Hr | repeat constructor; simpl; tauto |].
    intros a Ha [<-|[]]. contradiction.
  - unfold update_resource. destruct (JS.find _ _) as [r|] eqn:Hfr; [|auto].
    split; [exact Hc|]. simpl.
    destruct (JSFacts.find_some _ _ _ Hfr) as [_ H].
    unfold resource_has_id in H. apply String.eqb_eq in H.
    rewrite (KeyedFacts.keys_replace_first Resource.id rid); [exact Hr|].
    destruct name, category; unfold JS.truthy; repeat destruct (negb _); simpl; exact H.
  - unfold delete_resource. destruct (_ =? -1)%Z eqn:E; [auto|].
    split; [exact Hc|]. simpl.
    apply (KeyedFacts.NoDup_keys_remove_found Resource.id); [exact Hr|].
    exact (proj1 (KeyedFacts.findIndex_found Resource.id rid _) E).
Qed.

Lemma handle_keeps_ids_unique_witness :
  NoDup (map Callout.id (callouts Samples.store0)) /\
  NoDup (map Resource.id (resources Samples.store0)) /\
  fresh_ok Samples.store0 (ReqCreateCallout "c2" "t" Samples.fell_body) /\
  NoDup (map Callout.id (callouts (fst (handle Samples.store0
                                         (ReqCreateCallout "c2" "t" Samples.fell_body))))).
Proof.
  assert (Hc : NoDup (map Callout.id (callouts Samples.store0)))
    by (simpl; constructor; [simpl; tauto | constructor]).
  assert (Hr : NoDup (map Resource.id (resources Samples.store0)))
    by (simpl; constructor; [simpl; tauto | constructor]).
  assert (Hf : fresh_ok Samples.store0 (ReqCreateCallout "c2" "t" Samples.fell_body))
    by (simpl; intuition discriminate).
  split; [exact Hc|]. split; [exact Hr|]. split; [exact Hf|].
  exact (proj1 (handle_keeps_ids_unique _ _ Hc Hr Hf)).
Defined.

Lemma new_events_none (s : store) : new_events s s = [].
Proof. unfold new_events. apply skipn_all. Qed.

Lemma new_events_emit (s s1 : store) e :
  emitted s1 = emitted s -> new_events s (emit s1 e) = [e].
Proof.
  intros H. unfold new_events, emit. simpl. rewrite H.
  rewrite skipn_app, skipn_all, Nat.sub_diag. reflexivity.
Qed.

(** A client of the broadcast channel whose lists equal the store's, and
    which applies the events a request published, ends with lists equal to
    the new store's (ids unique, fresh id new): the page follows the server
    without refetching. *)
Theorem client_follows_server (s : store) (req : request)
  (Hc : NoDup (map Callout.id (callouts s)))
  (Hr : NoDup (map Resource.id (resources s)))
  (Hf : fresh_ok s req) :
  let s' := fst (handle s req) in
  Client.apply_events (Client.mkClient (callouts s) (resources s)) (new_events s s')
  = Client.mkClient (callouts s') (resources s').
Proof.
  cbv zeta.
  destruct req as [fresh now b|cid|cid rid|cid rid|fresh name category|rid name category|rid];
    simpl in *.
  - unfold create_callout. simpl. rewrite new_events_emit by reflexivity. reflexivity.
  - unfold delete_callout. destruct (_ =? -1)%Z eqn:E.
    + now rewrite new_events_none.
    + simpl. rewrite new_events_emit by reflexivity. simpl.
      rewrite (KeyedFacts.remove_found_filter Callout.id cid); [reflexivity | exact Hc|].
      exact (proj1 (KeyedFacts.findIndex_found Callout.id cid _) E).
  - unfold assign. destruct (find_callout cid (callouts s)) as [c|] eqn:Hfc;
      [|now rewrite new_events_none].
    destruct existsb; [now rewrite new_events_none|].
    simpl. rewrite new_events_emit by reflexivity. simpl.
    destruct (JSFacts.find_some _ _ _ Hfc) as [_ H].
    unfold callout_has_id in H. apply String.eqb_eq in H. subst cid.
    set (c' := Callout.with_assigned c (Callout.assignedResources c ++ [rid])).
    unfold callout_has_id. f_equal. symmetry.
    exact (KeyedFacts.replace_first_map Callout.id c' _ Hc).
  - unfold unassign. destruct (find_callout cid (callouts s)) as [c|] eqn:Hfc;
      [|now rewrite new_events_none].
    simpl. rewrite new_events_emit by reflexivity. simpl.
    destruct (JSFacts.find_some _ _ _ Hfc) as [_ H].
    unfold callout_has_id in H. apply String.eqb_eq in H. subst cid.
    set (c' := Callout.with_assigned c
                 (filter (fun x => negb (String.eqb x rid)) (Callout.assignedResources c))).
    unfold callout_has_id. f_equal. symmetry.
    exact (KeyedFacts.replace_first_map Callout.id c' _ Hc).
  - unfold create_resource. destruct (_ || _) eqn:E; [now rewrite new_events_none|].
    destruct name, category; try (now rewrite new_events_none).
    simpl. rewrite new_events_emit by reflexivity. reflexivity.
  - unfold update_resource. destruct (JS.find _ _) as [r|] eqn:Hfr;
      [|now rewrite new_events_none].
    simpl. rewrite new_events_emit by reflexivity. simpl.
    destruct (JSFacts.find_some _ _ _ Hfr) as [_ H].
    unfold resource_has_id in H. apply String.eqb_eq in H. subst rid.
    match goal with
    | |- context [JS.replace_first _ ?r2 _] => set (r' := r2)
    end.
    assert (Hid : Resource.id r' = Resource.id r)
      by (unfold r'; destruct name, category; unfold JS.truthy;
          repeat destruct (negb _); reflexivity).
    unfold resource_has_id. rewrite <- Hid. f_equal. symmetry.
    exact (KeyedFacts.replace_first_map Resource.id r' _ Hr).
  - unfold delete_resource. destruct (_ =? -1)%Z eqn:E.
    + now rewrite new_events_none.
    + simpl. rewrite new_events_emit by reflexivity. simpl.
      rewrite (KeyedFacts.remove_found_filter Resource.id rid); [reflexivity | exact Hr|].
      exact (proj1 (KeyedFacts.findIndex_found Resource.id rid _) E).
Qed.

Lemma client_follows_server_witness :
  NoDup (map Callout.id (callouts Samples.store0)) /\
  NoDup (map Resource.id (resources Samples.store0)) /\
  fresh_ok Samples.store0 (ReqAssign "c1" "r1") /\
  Client.c_callouts
    (Client.apply_events (Client.mkClient (callouts Samples.store0) (resources Samples.store0))
       (new_events Samples.store0 (fst (handle Samples.store0 (ReqAssign "c1" "r1")))))
  = callouts (fst (handle Samples.store0 (ReqAssign "c1" "r1"))).
Proof.
  assert (Hc : NoDup (map Callout.id (callouts Samples.store0)))
    by (simpl; constructor; [simpl; tauto | constructor]).
  assert (Hr : NoDup (map Resource.id (resources Samples.store0)))
    by (simpl; constructor; [simpl; tauto | constructor]).
  assert (Hf : fresh_ok Samples.store0 (ReqAssign "c1" "r1")) by exact I.
  split; [exact Hc|]. split; [exact Hr|]. split; [exact Hf|].
  rewrite (client_follows_server _ _ Hc Hr Hf). reflexivity.
Defined.

End ServerFacts.

(** ** Further properties of the board *)
Module BoardMoreFacts.
Import Board.

Lemma findIndex_first {A} (p : A -> bool) (pre post : list A) (x : A) :
  existsb p pre = false -> p x = true ->
  JS.findIndex p (pre ++ x :: post) = Z.of_nat (length pre).
Proof.
  intros Hpre Hx. induction pre as [|y pre IH]; simpl in *.
  - now rewrite Hx.
  - apply orb_false_iff in Hpre as [Hy Hpre]. rewrite Hy, (IH Hpre).
    destruct (Z.of_nat (length pre)) eqn:E; lia.
Qed.

Lemma existsb_false_all {A} (p : A -> bool) (l : list A) :
  existsb p l = false -> forall x, In x l -> p x = false.
Proof.
  intros H x Hx. destruct (p x) eqn:Ex; [|reflexivity].
  assert (existsb p l = true) by (apply existsb_exists; eauto). congruence.
Qed.

Lemma splice_remove1_split {A} (pre post : list A) (x : A) :
  JS.splice_remove1 (pre ++ x :: post) (Z.of_nat (length pre)) = (pre ++ post, Some x).
Proof.
  unfold JS.splice_remove1.
  rewrite JSFacts.splice_start_in_range by (rewrite length_app; simpl; lia).
  rewrite nth_error_app2, Nat.sub_diag by lia. cbn [nth_error].
  assert (Hf : firstn (length pre) (pre ++ x :: post) = pre)
    by (induction pre; simpl; congruence).
  assert (Hs : skipn (S (length pre)) (pre ++ x :: post) = post)
    by (clear Hf; induction pre as [|a pre IH]; [reflexivity | exact IH]).
  now rewrite Hf, Hs.
Qed.

(** [arrayMove(items, i, -1)] with [i] a valid index moves the item at [i]
    to the end: the target [length - 1] is taken before the removal. *)
Lemma arrayMove_to_last {A} (pre post : list A) (x : A) :
  arrayMove (pre ++ x :: post) (Z.of_nat (length pre)) (-1) = pre ++ post ++ [x].
Proof.
  unfold arrayMove. rewrite splice_remove1_split.
  replace (if (-1 <? 0)%Z then _ else _) with (Z.of_nat (length (pre ++ post)))
    by (rewrite !length_app; simpl; lia).
  unfold JS.splice_insert, JS.splice_start.
  destruct (Z.ltb_spec (Z.of_nat (length (pre ++ post))) 0); [lia|].
  rewrite Z.min_id, Nat2Z.id.
  rewrite firstn_all, skipn_all. now rewrite <- app_assoc.
Qed.

(** A drop never adds, removes or reorders columns: the keys of [columns]
    after [handleDragEnd] are the keys before it. *)
Theorem handleDragEnd_keys (cols : columns_t) (ev : drag_end) :
  map fst (handleDragEnd cols ev) = map fst cols.
Proof.
  unfold handleDragEnd.
  destruct (over ev) as [ov|]; [|reflexivity]. cbv zeta.
  destruct (find_from_column cols (active_id ev)) as [fromC|] eqn:Hf;
    [|simpl; reflexivity].
  destruct (over_columnId ov) as [toC|];
    [|simpl; destruct (negb (negb _)); reflexivity].
  destruct (negb (JS.truthy (Some fromC)) || negb (JS.truthy (Some toC)));
    [reflexivity|].
  destruct (BoardFacts.find_from_column_some _ _ _ Hf) as (items & Hg & _).
  rewrite Hg.
  destruct (String.eqb_spec fromC toC) as [_|Hne].
  - apply BoardFacts.keys_set. congruence.
  - destruct (JS.find (has_id (active_id ev)) items) as [m|];
      [|destruct (get cols toC); reflexivity].
    destruct (get cols toC) as [toItems|] eqn:Hto; [|reflexivity].
    rewrite BoardFacts.keys_set.
    + apply BoardFacts.keys_set. congruence.
    + rewrite BoardFacts.get_set_other by exact Hne. congruence.
Qed.

(** Dropping an item on its own column (an [over] whose [id] is no item's id
    and whose [columnId] is that column) moves it to the end of the column:
    [newIdx] is -1, which [arrayMove] reads as the last position. *)
Theorem same_column_drop_to_end (cols : columns_t) (col aid oid : string)
  (pre post : list Res) (x : Res)
  (Hf : find_from_column cols aid = Some col)
  (Hcol : col <> "")
  (Hg : get cols col = Some (pre ++ x :: post))
  (Hpre : existsb (has_id aid) pre = false)
  (Hx : has_id aid x = true)
  (Hoid : existsb (has_id oid) (pre ++ x :: post) = false) :
  handleDragEnd cols (mkDragEnd aid (Some (mkOver oid (Some col))))
  = set cols col (pre ++ post ++ [x]).
Proof.
  unfold handleDragEnd. simpl. rewrite Hf. unfold JS.truthy.
  destruct (String.eqb_spec col ""); [contradiction|]. simpl.
  rewrite Hg, String.eqb_refl.
  rewrite (findIndex_first _ _ _ _ Hpre Hx).
  rewrite (JSFacts.findIndex_none _ _ (existsb_false_all _ _ Hoid)).
  now rewrite arrayMove_to_last.
Qed.

Lemma same_column_drop_to_end_witness :
  find_from_column Samples.pools_spec "r1" = Some "available" /\
  ("available" <> "") /\
  get Samples.pools_spec "available" = Some ([] ++ Samples.br1 :: [Samples.br2]) /\
  existsb (has_id "r1") [] = false /\
  has_id "r1" Samples.br1 = true /\
  existsb (has_id "available") ([] ++ Samples.br1 :: [Samples.br2]) = false /\
  handleDragEnd Samples.pools_spec
    (mkDragEnd "r1" (Some (mkOver "available" (Some "available"))))
  = set Samples.pools_spec "available" ([] ++ [Samples.br2] ++ [Samples.br1]).
Proof.
  assert (Hf : find_from_column Samples.pools_spec "r1" = Some "available")
    by reflexivity.
  assert (Hcol : "available" <> "") by discriminate.
  assert (Hg : get Samples.pools_spec "available"
               = Some ([] ++ Samples.br1 :: [Samples.br2])) by reflexivity.
  assert (Hpre : existsb (has_id "r1") [] = false) by reflexivity.
  assert (Hx : has_id "r1" Samples.br1 = true) by reflexivity.
  assert (Hoid : existsb (has_id "available") ([] ++ Samples.br1 :: [Samples.br2]) = false)
    by reflexivity.
  split; [exact Hf|]. split; [exact Hcol|]. split; [exact Hg|].
  split; [exact Hpre|]. split; [exact Hx|]. split; [exact Hoid|].
  exact (same_column_drop_to_end _ _ _ _ _ _ _ Hf Hcol Hg Hpre Hx Hoid).
Defined.

End BoardMoreFacts.

(** ** Properties of the splitter *)
Module SplitterFacts.
Import Splitter.

Lemma new_width_ge (x : Q) (r : rect) : (200 # 1 <= new_width x r)%Q.
Proof. unfold new_width. apply Q.le_max_l. Qed.

(** Whatever the mouse does, the sidebar is never narrower than 200 px:
    its initial width is 300 and every move clamps the new width below by
    200. *)
Theorem sidebar_at_least_200 (es : list mouse_event) :
  (200 # 1 <= sidebarWidth (run init es))%Q.
Proof.
  unfold run.
  assert (Hinv : forall st, (200 # 1 <= sidebarWidth st)%Q ->
                 (200 # 1 <= sidebarWidth (fold_left step es st))%Q).
  { induction es as [|e es IH]; intros st Hst; simpl; [exact Hst|].
    apply IH. destruct e as [| |x [r|]]; simpl; try exact Hst.
    all: destruct (dragging st); simpl; auto using new_width_ge. }
  apply Hinv. unfold init. simpl. unfold Qle. simpl. lia.
Qed.

(** A move while dragging, over a container at least 400 px wide, leaves
    the main pane at least 200 px: the new width is at most [width - 200]. *)
Theorem move_leaves_main_pane (st : state) (x : Q) (r : rect)
  (Hd : dragging st = true) (Hw : (400 # 1 <= width r)%Q) :
  (sidebarWidth (step st (MouseMove x (Some r))) <= width r - (200 # 1))%Q.
Proof.
  simpl. rewrite Hd. simpl. unfold new_width.
  apply Q.max_lub.
  - rewrite Qle_minus_iff in Hw |- *.
    setoid_replace (width r - (200 # 1) + - (200 # 1))%Q
      with (width r + - (400 # 1))%Q by ring.
    exact Hw.
  - apply Q.le_min_r.
Qed.

Lemma move_leaves_main_pane_witness :
  dragging (mkState (300 # 1) true) = true /\
  (400 # 1 <= width (mkRect 0 (1000 # 1)))%Q /\
  (sidebarWidth (step (mkState (300 # 1) true) (MouseMove (900 # 1) (Some (mkRect 0 (1000 # 1)))))
   <= width (mkRect 0 (1000 # 1)) - (200 # 1))%Q.
Proof.
  assert (Hd : dragging (mkState (300 # 1) true) = true) by reflexivity.
  assert (Hw : (400 # 1 <= width (mkRect 0 (1000 # 1)))%Q)
    by (simpl; unfold Qle; simpl; lia).
  split; [exact Hd|]. split; [exact Hw|].
  exact (move_leaves_main_pane _ _ _ Hd Hw).
Defined.

End SplitterFacts.
